(** * climate: plans, exit codes and the Run orchestrator

    A shallow embedding of [climate.go] (package [climate]): the plan
    builders [Func] and [Struct], the exit-code mapping [exitCode], the run
    options with [WithMetadata], and the entry points [Run] and
    [RunAndExit].

    Go values are modelled as follows.
    - [int] is [Z]; the functions below only copy exit codes, they do no
      arithmetic on them.
    - An interface value is [option] of its non-nil cases ([None] is [nil]);
      a pointer that may be nil is an [option] as well.
    - A function that can panic returns a [result]; code that also touches
      contexts, calls the plan or exits the process lives in the monad [M],
      which threads the context store and records the calls it makes. *)

From Stdlib Require Import ZArith List String Bool Lia.
Import ListNotations.
Local Open Scope Z_scope.
Local Open Scope string_scope.
Local Open Scope list_scope.
Set Warnings "-register-all".

(** ** Panics and results *)

(** The values a panic can carry in this package. *)
Inductive panic : Type :=
| nil_dereference
    (* runtime error: invalid memory address or nil pointer dereference *)
| assert_failed (message : string)
    (* github.com/avamsi/ergo/assert: the asserted condition is false *)
| panic_value (v : string).
    (* any other value passed to panic *)

(** A call either returns a value or panics. *)
Inductive result (A : Type) : Type :=
| Ok (a : A)
| Panicked (p : panic).
Arguments Ok {A} a.
Arguments Panicked {A} p.

Definition result_bind {A B} (r : result A) (k : A -> result B) : result B :=
  match r with
  | Ok a => k a
  | Panicked p => Panicked p
  end.

Declare Scope result_scope.
Delimit Scope result_scope with result.
Notation "x <~ r ;; k" := (result_bind r (fun x => k))
  (at level 61, r at next level, right associativity) : result_scope.

Definition is_Ok {A} (r : result A) : bool :=
  match r with Ok _ => true | Panicked _ => false end.

(** A Go byte slice: [nil] or a (possibly empty) sequence of bytes. *)
Inductive bytes : Type :=
| nil_slice
| slice (data : list Byte.byte).

(** ** Package reflect *)

Module reflect.

(** reflect.Kind, in the order of the Go declaration. *)
Inductive Kind : Type :=
| Invalid | Bool | Int | Int8 | Int16 | Int32 | Int64
| Uint | Uint8 | Uint16 | Uint32 | Uint64 | Uintptr
| Float32 | Float64 | Complex64 | Complex128
| Array | Chan | Func | Interface | Map | Pointer | Slice
| String | Struct | UnsafePointer.

Definition Kind_eqb (a b : Kind) : bool :=
  match a, b with
  | Invalid, Invalid | Bool, Bool | Int, Int | Int8, Int8 | Int16, Int16
  | Int32, Int32 | Int64, Int64 | Uint, Uint | Uint8, Uint8
  | Uint16, Uint16 | Uint32, Uint32 | Uint64, Uint64 | Uintptr, Uintptr
  | Float32, Float32 | Float64, Float64 | Complex64, Complex64
  | Complex128, Complex128 | Array, Array | Chan, Chan | Func, Func
  | Interface, Interface | Map, Map | Pointer, Pointer | Slice, Slice
  | String, String | Struct, Struct | UnsafePointer, UnsafePointer => true
  | _, _ => false
  end.

(** The predeclared non-composite types. *)
Inductive basic : Type :=
| t_bool | t_int | t_int8 | t_int16 | t_int32 | t_int64
| t_uint | t_uint8 | t_uint16 | t_uint32 | t_uint64 | t_uintptr
| t_float32 | t_float64 | t_complex64 | t_complex128
| t_string | t_unsafe_pointer.

(** A Go type as reflect.Type describes it. *)
Inductive rtype : Type :=
| TBasic (b : basic)
| TArray (len : nat) (elem : rtype)
| TChan (elem : rtype)
| TFunc (params results : list rtype) (variadic : bool)
| TInterface (methods : list string)
| TMap (key elem : rtype)
| TPointer (elem : rtype)
| TSlice (elem : rtype)
| TStruct (fields : list (string * rtype))
| TDefined (name : string) (underlying : rtype).

Definition basic_Kind (b : basic) : Kind :=
  match b with
  | t_bool => Bool | t_int => Int | t_int8 => Int8 | t_int16 => Int16
  | t_int32 => Int32 | t_int64 => Int64 | t_uint => Uint
  | t_uint8 => Uint8 | t_uint16 => Uint16 | t_uint32 => Uint32
  | t_uint64 => Uint64 | t_uintptr => Uintptr | t_float32 => Float32
  | t_float64 => Float64 | t_complex64 => Complex64
  | t_complex128 => Complex128 | t_string => String
  | t_unsafe_pointer => UnsafePointer
  end.

(** Type.Kind on a non-nil Type. *)
Fixpoint Kind_of (t : rtype) : Kind :=
  match t with
  | TBasic b => basic_Kind b
  | TArray _ _ => Array
  | TChan _ => Chan
  | TFunc _ _ _ => Func
  | TInterface _ => Interface
  | TMap _ _ => Map
  | TPointer _ => Pointer
  | TSlice _ => Slice
  | TStruct _ => Struct
  | TDefined _ u => Kind_of u
  end.

(** A value of interface type [reflect.Type]; [None] is the nil Type. *)
Definition Type_ : Type := option rtype.

(** [t.Kind()]: a method call on the nil interface panics. *)
Definition Type_Kind (t : Type_) : result Kind :=
  match t with
  | Some rt => Ok (Kind_of rt)
  | None => Panicked nil_dereference
  end.

(** [t.Elem()]: the element type of an Array, Chan, Map, Pointer or
    Slice; it panics for any other kind. *)
Fixpoint Elem_of (t : rtype) : result rtype :=
  match t with
  | TArray _ e | TChan e | TMap _ e | TPointer e | TSlice e => Ok e
  | TDefined _ u => Elem_of u
  | _ => Panicked (panic_value "reflect: Elem of invalid type")
  end.

Definition Type_Elem (t : Type_) : result Type_ :=
  match t with
  | Some rt => result_bind (Elem_of rt) (fun e => Ok (Some e))
  | None => Panicked nil_dereference
  end.

(** A non-nil value of type [any]: its dynamic type and its data word. *)
Record eface : Type := mk_eface { typ : rtype; word : nat }.

(** A value of type [any]; [None] is the nil interface. *)
Definition any : Type := option eface.

(** reflect.Value: the zero Value or a typed one. *)
Inductive Value : Type :=
| zero_Value
| mk_Value (t : rtype) (w : nat).

(** [reflect.TypeOf(i)]: the dynamic type of [i], the nil Type for nil. *)
Definition TypeOf (i : any) : Type_ := option_map typ i.

(** [reflect.ValueOf(i)]: the zero Value for nil. *)
Definition ValueOf (i : any) : Value :=
  match i with
  | Some e => mk_Value (typ e) (word e)
  | None => zero_Value
  end.

(** The nil pointer to [T] as an interface value, the argument of
    [reflect.TypeOf] in [Struct]. *)
Definition nil_pointer_to (T : rtype) : any :=
  Some (mk_eface (TPointer T) 0%nat).

End reflect.

(** ** Package assert (github.com/avamsi/ergo) *)

Module assert.

(** [assert.Truef(cond, format, args...)] panics with the formatted
    message unless [cond] holds. *)
Definition Truef (cond : bool) (message : string) : result unit :=
  if cond then Ok tt else Panicked (assert_failed message).

End assert.

(** ** Plans *)

(** A reflection holds the introspected type and value; [ptr] is the
    reflection of the pointer type when the struct is reached through one. *)
Inductive reflection : Type :=
| mk_reflection (ptr : option reflection) (ot : reflect.Type_)
                (ov : option reflect.Value).

Definition ptr (r : reflection) : option reflection :=
  let 'mk_reflection p _ _ := r in p.
Definition ot (r : reflection) : reflect.Type_ :=
  let 'mk_reflection _ t _ := r in t.
Definition ov (r : reflection) : option reflect.Value :=
  let 'mk_reflection _ _ v := r in v.

Record funcPlan : Type := mk_funcPlan { funcPlan_reflection : reflection }.

Inductive structPlan : Type :=
| mk_structPlan (r : reflection) (subcommands : list structPlan).


(** The two assertion failures of plan construction; the specification
    calls this error kind InvalidShapeKind. *)
Definition not_a_func : panic := assert_failed "not a func: %v".
Definition not_a_struct : panic := assert_failed "not a struct: %v".

Definition InvalidShapeKind (p : panic) : bool :=
  match p with
  | assert_failed m =>
      String.eqb m "not a func: %v" || String.eqb m "not a struct: %v"
  | _ => false
  end.

(** [Func(f)]. *)
Definition Func (f : reflect.any) : result funcPlan :=
  (let t := reflect.TypeOf f in
   k <~ reflect.Type_Kind t ;;
   _ <~ assert.Truef (reflect.Kind_eqb k reflect.Func) "not a func: %v" ;;
   let v := reflect.ValueOf f in
   Ok (mk_funcPlan (mk_reflection None t (Some v))))%result.

(** [Struct[T](subcommands...)]. *)
Definition Struct (T : reflect.rtype) (subcommands : list structPlan)
  : result structPlan :=
  (let ptr := reflect.TypeOf (reflect.nil_pointer_to T) in
   t <~ reflect.Type_Elem ptr ;;
   k <~ reflect.Type_Kind t ;;
   _ <~ assert.Truef (reflect.Kind_eqb k reflect.Struct) "not a struct: %v" ;;
   Ok (mk_structPlan
         (mk_reflection (Some (mk_reflection None ptr None)) t None)
         subcommands))%result.

(** ** Packages os and os/exec *)

Module os.

(** How a waited-for process ended (syscall.WaitStatus). *)
Inductive WaitStatus : Type :=
| exited (status : Z)
| signaled (signal : Z).

(** [ExitStatus]: the exit status of an exited process, -1 otherwise. *)
Definition ExitStatus (w : WaitStatus) : Z :=
  match w with
  | exited c => c
  | signaled _ => -1
  end.

Record ProcessState : Type := mk_ProcessState { pid : Z; status : WaitStatus }.

(** [(p *ProcessState).ExitCode()]: -1 for a nil receiver, for a process
    that has not exited and for one ended by a signal. *)
Definition ExitCode (p : option ProcessState) : Z :=
  match p with
  | None => -1
  | Some ps => ExitStatus (status ps)
  end.

End os.

Module exec.

(** os/exec.ExitError embeds a *os.ProcessState. *)
Record ExitError : Type :=
  mk_ExitError { ProcessState : option os.ProcessState; Stderr : bytes }.

(** [(e *ExitError).ExitCode()], promoted from the embedded pointer: reading
    the field through a nil [e] panics. *)
Definition ExitCode (e : option ExitError) : result Z :=
  match e with
  | None => Panicked nil_dereference
  | Some x => Ok (os.ExitCode (ProcessState x))
  end.

End exec.

(** ** Errors *)

(** A non-nil value of interface type [error], by dynamic type. An error of
    any other dynamic type carries its type name, its message and the errors
    its [Unwrap] method yields.

    Modelled from the spec: the declaration of [exitError] is not part of
    climate.go, which only reads its [code] field; it is "a domain error that
    additionally carries an intended process exit code", here with the
    errors it wraps. *)
Inductive error : Type :=
| exitError_ptr (p : option exitError)
| exec_ExitError_ptr (p : option exec.ExitError)
| other_error (type_name : string) (message : string) (unwrap : list error)
with exitError : Type :=
| mk_exitError (code : Z) (errs : list error).

Definition code (e : exitError) : Z := let 'mk_exitError c _ := e in c.
Definition errs (e : exitError) : list error := let 'mk_exitError _ l := e in l.

(** The type assertions of the type switch in [exitCode]. *)
Definition as_exitError (e : error) : option (option exitError) :=
  match e with exitError_ptr p => Some p | _ => None end.

Definition as_exec_ExitError (e : error) : option (option exec.ExitError) :=
  match e with exec_ExitError_ptr p => Some p | _ => None end.

(** Reading [err.code] through a pointer. *)
Definition exitError_code (p : option exitError) : result Z :=
  match p with
  | None => Panicked nil_dereference
  | Some e => Ok (code e)
  end.

(** [exitCode(err)]: the cases of the type switch are tried in source
    order. *)
Definition exitCode (err : option error) : result Z :=
  match err with
  | None => Ok 0
  | Some e =>
      match as_exitError e with
      | Some p => exitError_code p
      | None =>
          match as_exec_ExitError e with
          | Some p => exec.ExitCode p
          | None => Ok 1
          end
      end
  end.

(** The error kinds of the specification. *)
Definition explicit_exit_code_error (e : error) : bool :=
  match e with exitError_ptr _ => true | _ => false end.

Definition subprocess_termination_error (e : error) : bool :=
  match e with exec_ExitError_ptr _ => true | _ => false end.

(** A plain domain error is of neither kind. *)
Definition plain_error (e : error) : bool :=
  negb (explicit_exit_code_error e) && negb (subprocess_termination_error e).

(** [wraps P e]: some error strictly below [e] in its chain satisfies [P]. *)
Fixpoint wraps (P : error -> bool) (e : error) : bool :=
  match e with
  | exitError_ptr (Some (mk_exitError _ l)) =>
      existsb (fun u => P u || wraps P u) l
  | exitError_ptr None => false
  | exec_ExitError_ptr _ => false
  | other_error _ _ us => existsb (fun u => P u || wraps P u) us
  end.

(** The exit code an error carries explicitly, if it is an
    explicit-exit-code error behind a non-nil pointer. *)
Definition carried_code (e : error) : option Z :=
  match e with
  | exitError_ptr (Some x) => Some (code x)
  | _ => None
  end.

(** The exit code of the external process behind a subprocess-termination
    error, if that process has exited. *)
Definition subprocess_exit_code (e : error) : option Z :=
  match e with
  | exec_ExitError_ptr (Some x) =>
      match exec.ProcessState x with
      | Some ps =>
          match os.status ps with
          | os.exited m => Some m
          | os.signaled _ => None
          end
      | None => None
      end
  | _ => None
  end.

(** The kinds the two builders accept. *)
Definition is_func (f : reflect.any) : bool :=
  match reflect.TypeOf f with
  | Some t => reflect.Kind_eqb (reflect.Kind_of t) reflect.Func
  | None => false
  end.

Definition is_struct (T : reflect.rtype) : bool :=
  reflect.Kind_eqb (reflect.Kind_of T) reflect.Struct.

(** ** Package context *)

Module context.

(** A non-nil context: the background context or one made by [WithCancel]
    from a parent; [id] names its cancellation flag in the store. *)
Inductive Context : Type :=
| Background
| cancelCtx (id : nat) (parent : Context).

(** The cancellation flags: the next unused name and the names of the
    contexts whose cancel function has been called. *)
Record store : Type := mk_store { next_id : nat; canceled : list nat }.

(** A context is done once it or one of its ancestors is canceled. *)
Fixpoint Done (s : store) (c : Context) : bool :=
  match c with
  | Background => false
  | cancelCtx id parent => existsb (Nat.eqb id) (canceled s) || Done s parent
  end.

(** The effect of the cancel function of the context named [id]. *)
Definition cancel (id : nat) (s : store) : store :=
  mk_store (next_id s) (id :: canceled s).

(** [WithCancel(parent)]: a fresh child of [parent] and the name of its
    flag. *)
Definition WithCancel (parent : Context) (s : store) : Context * nat * store :=
  (cancelCtx (next_id s) parent, next_id s,
   mk_store (S (next_id s)) (canceled s)).

Definition parent_of (c : Context) : option Context :=
  match c with
  | Background => None
  | cancelCtx _ p => Some p
  end.

End context.

(** ** Run options *)

Record runOptions : Type := mk_runOptions { metadata : option bytes }.

(** [var opts runOptions]. *)
Definition zero_runOptions : runOptions := mk_runOptions None.

(** A modifier that returns: the change it makes to the options. Every
    value of [WithMetadata] is of this kind. *)
Definition modifier : Type := runOptions -> runOptions.

(** [WithMetadata(b)]: the modifier stores a pointer to [b]. *)
Definition WithMetadata (b : bytes) : modifier :=
  fun _ => mk_runOptions (Some b).

(** [for _, mod := range mods { mod(&opts) }]. *)
Definition apply_mods (mods : list modifier) (opts : runOptions) : runOptions :=
  fold_left (fun o m => m o) mods opts.

(** Any value of the modifier type, a func taking a pointer to
    [runOptions]: the nil func ([None]), or a function that changes the
    options it is given, may call the cancel
    functions it holds, and may panic. *)
Definition func_value : Type :=
  option (runOptions -> context.store -> result runOptions * context.store).

(** A modifier that returns, as a func value. *)
Definition returning (m : modifier) : func_value :=
  Some (fun opts s => (Ok (m opts), s)).

(** [for _, mod := range mods { mod(&opts) }] over any func values: calling
    the nil func panics, and a panic of a modifier ends the loop. *)
Fixpoint run_mods (mods : list func_value) (opts : runOptions)
    (s : context.store) : result runOptions * context.store :=
  match mods with
  | [] => (Ok opts, s)
  | m :: rest =>
      match m with
      | None => (Panicked nil_dereference, s)
      | Some f =>
          match f opts s with
          | (Ok opts', s') => run_mods rest opts' s'
          | (Panicked q, s') => (Panicked q, s')
          end
      end
  end.

(** The panic of [context.WithCancel] on a nil parent. *)
Definition nil_parent : panic :=
  panic_value "cannot create context from nil parent".

(** ** The orchestrator *)

(** How a computation ends: it returns, it panics, or the process exits. *)
Inductive outcome (A : Type) : Type :=
| Ret (a : A)
| Panic (p : panic)
| Exit (code : Z).
Arguments Ret {A} a.
Arguments Panic {A} p.
Arguments Exit {A} code.

Definition lift {A} (r : result A) : outcome A :=
  match r with
  | Ok a => Ret a
  | Panicked p => Panic p
  end.

(** ** Well-formed stores *)


(** Only names that were handed out are canceled. *)
Definition store_ok (s : context.store) : bool :=
  forallb (fun id => (id <? context.next_id s)%nat) (context.canceled s).

(** ** Sample inputs *)

(** Modelled from the spec: [internal.DecodeAsMetadata] is not part of
    climate.go; the specification has it fail fatally on a payload that is
    present but malformed. In this stand-in the payload itself is the
    metadata, and a payload without bytes is malformed. *)
Definition sample_Metadata : Type := list Byte.byte.

Definition sample_decode (b : bytes) : result (option sample_Metadata) :=
  match b with
  | nil_slice => Panicked (assert_failed "EOF")
  | slice [] => Panicked (assert_failed "EOF")
  | slice (x :: l) => Ok (Some (x :: l))
  end.

Definition empty_store : context.store := context.mk_store 0 [].

(** [errors.New("boom")]. *)
Definition boom : error := other_error "*errors.errorString" "boom" [].

(** An explicit-exit-code error with code 7. *)
Definition exit_7 : error := exitError_ptr (Some (mk_exitError 7 [])).

(** The error of a command that exited with status 3. *)
Definition subprocess_3 : error :=
  exec_ExitError_ptr
    (Some (exec.mk_ExitError (Some (os.mk_ProcessState 4242 (os.exited 3)))
                             nil_slice)).

(** [fmt.Errorf("run: %w", err)] around the two errors above. *)
Definition wrapped_subprocess_3 : error :=
  other_error "*fmt.wrapError" "run: exit status 3" [subprocess_3].

Definition wrapped_exit_7 : error :=
  other_error "*fmt.wrapError" "run: exit 7" [exit_7].

(** An explicit-exit-code error with code 7 around the subprocess error. *)
Definition exit_7_of_subprocess_3 : error :=
  exitError_ptr (Some (mk_exitError 7 [subprocess_3])).

(** A func() value, an int value, and a struct type. *)
Definition sample_func : reflect.any :=
  Some (reflect.mk_eface (reflect.TFunc [] [] false) 1%nat).

Definition sample_int : reflect.any :=
  Some (reflect.mk_eface (reflect.TBasic reflect.t_int) 1%nat).

Definition sample_struct : reflect.rtype :=
  reflect.TDefined "Opts"
    (reflect.TStruct [("Verbose", reflect.TBasic reflect.t_bool)]).

Section Orchestrator.

(** [internal.Metadata] and [internal.DecodeAsMetadata] belong to package
    internal, outside climate.go; they are parameters here. The decoder
    returns a pointer and no error, so a failure to decode is a panic. *)
Variable Metadata : Type.
Variable DecodeAsMetadata : bytes -> result (option Metadata).

(** The calls a computation makes, in order. *)
Inductive event : Type :=
| EvDecode (b : bytes) (r : result (option Metadata))
| EvWithCancel (parent child : context.Context)
| EvExecute (ctx : context.Context) (md : option Metadata)
            (r : result (option error))
| EvCancel (ctx : context.Context)
| EvExit (code : Z).

(** The interface [plan]: a non-nil value with its [execute] method, which
    may read and change the cancellation flags and may panic. (Calling
    [execute] on a nil plan panics with a nil dereference, as a plan whose
    [execute] does just that.) *)
Record plan : Type := mk_plan {
  execute : context.Context -> option Metadata -> context.store ->
            result (option error) * context.store
}.

(** State, panics, process exit and the record of calls. *)
Definition M (A : Type) : Type :=
  context.store -> outcome A * context.store * list event.

Definition ret {A} (a : A) : M A := fun s => (Ret a, s, []).

Definition bind {A B} (c : M A) (k : A -> M B) : M B :=
  fun s =>
    match c s with
    | (Ret a, s1, t1) => let '(o, s2, t2) := k a s1 in (o, s2, t1 ++ t2)
    | (Panic p, s1, t1) => (Panic p, s1, t1)
    | (Exit n, s1, t1) => (Exit n, s1, t1)
    end.

(** [defer d] before [body]: [d] runs when [body] returns or panics, and a
    panic of [body] goes on afterwards; nothing deferred runs once the
    process has exited. *)
Definition defer {A} (d : M unit) (body : M A) : M A :=
  fun s =>
    match body s with
    | (Exit n, s1, t1) => (Exit n, s1, t1)
    | (o, s1, t1) =>
        match d s1 with
        | (Ret _, s2, t2) => (o, s2, t1 ++ t2)
        | (Panic p, s2, t2) => (Panic p, s2, t1 ++ t2)
        | (Exit n, s2, t2) => (Exit n, s2, t1 ++ t2)
        end
    end.

Definition lift_result {A} (r : result A) : M A := fun s => (lift r, s, []).

(** [internal.DecodeAsMetadata(b)]. *)
Definition decode (b : bytes) : M (option Metadata) :=
  fun s => let r := DecodeAsMetadata b in (lift r, s, [EvDecode b r]).

(** [context.WithCancel(parent)]: the child and its cancel function. *)
Definition WithCancel (parent : context.Context)
  : M (context.Context * M unit) :=
  fun s =>
    let '(child, id, s') := context.WithCancel parent s in
    (Ret (child, fun s1 => (Ret tt, context.cancel id s1, [EvCancel child])),
     s', [EvWithCancel parent child]).

(** [p.execute(ctx, md)]. *)
Definition call_execute (p : plan) (ctx : context.Context)
    (md : option Metadata) : M (option error) :=
  fun s =>
    let '(r, s') := execute p ctx md s in (lift r, s', [EvExecute ctx md r]).

(** [os.Exit(code)]. *)
Definition os_Exit {A} (code : Z) : M A :=
  fun s => (Exit code, s, [EvExit code]).

(** The loop over the modifiers inside [Run]. *)
Definition call_mods (mods : list func_value) (opts : runOptions)
  : M runOptions :=
  fun s => let '(r, s') := run_mods mods opts s in (lift r, s', []).

(** [context.WithCancel(parent)] on a value of interface type
    [context.Context], where [None] is nil: a nil parent makes it panic,
    and then no context is created. *)
Definition WithCancel_value (parent : option context.Context)
  : M (context.Context * M unit) :=
  match parent with
  | Some c => WithCancel c
  | None => fun s => (Panic nil_parent, s, [])
  end.

(** [Run(ctx, p, mods...)] on any argument values: [ctx] may be nil, and
    each modifier may be nil or may panic. *)
Definition Run_values (ctx : option context.Context) (p : plan)
    (mods : list func_value) : M Z :=
  bind (call_mods mods zero_runOptions) (fun opts =>
  bind (match metadata opts with
        | Some b => decode b
        | None => ret None
        end) (fun md =>
  bind (WithCancel_value ctx) (fun cc =>
  let '(ctx', cancel) := cc in
  defer cancel
    (bind (call_execute p ctx' md) (fun err =>
     lift_result (exitCode err)))))).

(** [RunAndExit(p, mods...)] on any modifier values. *)
Definition RunAndExit_values (p : plan) (mods : list func_value) : M unit :=
  bind (Run_values (Some context.Background) p mods)
       (fun code => os_Exit code).

(** [Run] on a non-nil context and modifiers that return. *)
Definition Run (ctx : context.Context) (p : plan) (mods : list modifier)
  : M Z :=
  Run_values (Some ctx) p (map returning mods).

(** [RunAndExit] on modifiers that return. *)
Definition RunAndExit (p : plan) (mods : list modifier) : M unit :=
  RunAndExit_values p (map returning mods).

(** What a run shows: its outcome, the final store and its calls. *)
Definition outcome_of {A} (r : outcome A * context.store * list event)
  : outcome A := fst (fst r).
Definition store_of {A} (r : outcome A * context.store * list event)
  : context.store := snd (fst r).
Definition trace_of {A} (r : outcome A * context.store * list event)
  : list event := snd r.

(** The contexts a trace creates, the payloads it decodes, and the calls of
    [execute] and of [os.Exit] in it. *)
Definition created (t : list event) : list (context.Context * context.Context) :=
  flat_map (fun e => match e with
                     | EvWithCancel p c => [(p, c)]
                     | _ => []
                     end) t.

Definition decoded (t : list event) : list bytes :=
  flat_map (fun e => match e with EvDecode b _ => [b] | _ => [] end) t.

Definition executed (t : list event)
  : list (context.Context * option Metadata * result (option error)) :=
  flat_map (fun e => match e with
                     | EvExecute c md r => [(c, md, r)]
                     | _ => []
                     end) t.

Definition exits (t : list event) : list Z :=
  flat_map (fun e => match e with EvExit n => [n] | _ => [] end) t.

(** A plan whose [execute] ignores its arguments and ends as [r]. *)
Definition constant_plan (r : result (option error)) : plan :=
  mk_plan (fun _ _ s => (r, s)).

(** A plan whose [execute] cancels the context named [id] (as a callable
    holding the cancel function of an ancestor does) before returning. *)
Definition canceling_plan (id : nat) (err : option error) : plan :=
  mk_plan (fun _ _ s => (Ok err, context.cancel id s)).

(** Whether the decoding step of [Run] gets past [DecodeAsMetadata]: there
    is nothing to decode, or the decoder returns. *)
Definition decoding_completes (mods : list modifier) : bool :=
  match metadata (apply_mods mods zero_runOptions) with
  | None => true
  | Some b => is_Ok (DecodeAsMetadata b)
  end.

(** [Run] from [context.WithCancel] on, written out: one context is made,
    [execute] is called on it, the error is mapped and the context is
    canceled. *)
Definition run_body (ctx : context.Context) (p : plan) (md : option Metadata)
    (s : context.store) : outcome Z * context.store * list event :=
  let child := context.cancelCtx (context.next_id s) ctx in
  let rs := execute p child md
              (context.mk_store (S (context.next_id s)) (context.canceled s)) in
  (lift (result_bind (fst rs) exitCode),
   context.cancel (context.next_id s) (snd rs),
   [EvWithCancel ctx child; EvExecute child md (fst rs); EvCancel child]).

(** [Run_values] from [context.WithCancel] on: nothing happens but the
    panic when the parent is nil. *)
Definition run_body_value (ctx : option context.Context) (p : plan)
    (md : option Metadata) (s : context.store)
  : outcome Z * context.store * list event :=
  match ctx with
  | Some parent => run_body parent p md s
  | None => (Panic nil_parent, s, [])
  end.

(** Whether a call of [Run_values] gets as far as creating its context:
    every modifier returns, the decoder returns if there is a payload, and
    the parent context is not nil. *)
Definition setup_completes (ctx : option context.Context)
    (mods : list func_value) (s : context.store) : bool :=
  match run_mods mods zero_runOptions s with
  | (Ok opts, _) =>
      match metadata opts with
      | None => true
      | Some b => is_Ok (DecodeAsMetadata b)
      end
      && match ctx with Some _ => true | None => false end
  | (Panicked _, _) => false
  end.

(** ** Properties of the exit-code mapping *)

Lemma Kind_eqb_eq (a b : reflect.Kind) : reflect.Kind_eqb a b = true <-> a = b.
Proof.
  split.
  - destruct a, b; simpl; intros H; try reflexivity; discriminate H.
  - intros ->. destruct b; reflexivity.
Qed.

Lemma exitCode_nil : exitCode None = Ok 0.
Proof. reflexivity. Qed.

Lemma exitCode_plain (e : error) :
  plain_error e = true -> exitCode (Some e) = Ok 1.
Proof.
  destruct e as [x | x | n m us]; simpl; intros H;
    [discriminate H | discriminate H | reflexivity].
Qed.

Lemma exitCode_carried (e : error) (N : Z) :
  carried_code e = Some N -> exitCode (Some e) = Ok N.
Proof.
  destruct e as [[x |] | x | n m us]; simpl; intros H; try discriminate H.
  congruence.
Qed.


(** The first case of the type switch decides whenever it applies. *)
Lemma exitCode_first_case (e : error) (x : option exitError) :
  as_exitError e = Some x -> exitCode (Some e) = exitError_code x.
Proof. intros H. unfold exitCode. rewrite H. reflexivity. Qed.

(** No error is of both dynamic types. *)
Lemma type_switch_exclusive (e : error) :
  explicit_exit_code_error e && subprocess_termination_error e = false.
Proof. destruct e; reflexivity. Qed.

(** ** The shape of a run *)

Lemma run_body_eq ctx p md s :
  bind (WithCancel ctx)
       (fun cc => let '(ctx', cancel) := cc in
                  defer cancel
                    (bind (call_execute p ctx' md)
                          (fun err => lift_result (exitCode err)))) s
  = run_body ctx p md s.
Proof.
  unfold run_body, bind, WithCancel, defer, call_execute, lift_result.
  simpl.
  destruct (execute p _ md _) as [[err | q] s2]; simpl.
  - destruct (exitCode err); reflexivity.
  - reflexivity.
Qed.

Lemma run_body_value_eq ctx p md s :
  bind (WithCancel_value ctx)
       (fun cc => let '(ctx', cancel) := cc in
                  defer cancel
                    (bind (call_execute p ctx' md)
                          (fun err => lift_result (exitCode err)))) s
  = run_body_value ctx p md s.
Proof.
  destruct ctx as [parent |]; simpl; [apply run_body_eq | reflexivity].
Qed.

(** [Run_values] flattened by the ways its steps can go. *)
Lemma Run_values_eq ctx p mods s :
  Run_values ctx p mods s =
  match run_mods mods zero_runOptions s with
  | (Panicked q, s0) => (Panic q, s0, [])
  | (Ok opts, s0) =>
      match metadata opts with
      | None => run_body_value ctx p None s0
      | Some b =>
          match DecodeAsMetadata b with
          | Ok md =>
              (outcome_of (run_body_value ctx p md s0),
               store_of (run_body_value ctx p md s0),
               EvDecode b (Ok md) :: trace_of (run_body_value ctx p md s0))
          | Panicked q => (Panic q, s0, [EvDecode b (Panicked q)])
          end
      end
  end.
Proof.
  unfold Run_values. unfold bind at 1. unfold call_mods.
  destruct (run_mods mods zero_runOptions s) as [[opts | q] s0]; simpl;
    [| reflexivity].
  destruct (metadata opts) as [b |].
  - unfold bind at 1. unfold decode.
    destruct (DecodeAsMetadata b) as [md | q]; simpl; [| reflexivity].
    rewrite run_body_value_eq.
    destruct (run_body_value ctx p md s0) as [[o s1] t]. reflexivity.
  - unfold bind at 1. unfold ret.
    rewrite run_body_value_eq.
    destruct (run_body_value ctx p None s0) as [[o s1] t]. reflexivity.
Qed.

(** Modifiers that return do what [apply_mods] says and leave the store. *)
Lemma run_mods_returning (mods : list modifier) opts s :
  run_mods (map returning mods) opts s = (Ok (apply_mods mods opts), s).
Proof.
  revert opts. induction mods as [| m rest IH]; intros opts; simpl;
    [reflexivity | apply IH].
Qed.

(** [Run] flattened by the three ways its decoding step can go. *)
Lemma Run_eq ctx p mods s :
  Run ctx p mods s =
  match metadata (apply_mods mods zero_runOptions) with
  | None => run_body ctx p None s
  | Some b =>
      match DecodeAsMetadata b with
      | Ok md =>
          (outcome_of (run_body ctx p md s), store_of (run_body ctx p md s),
           EvDecode b (Ok md) :: trace_of (run_body ctx p md s))
      | Panicked q => (Panic q, s, [EvDecode b (Panicked q)])
      end
  end.
Proof.
  unfold Run. rewrite Run_values_eq, run_mods_returning. reflexivity.
Qed.

(** Whatever [execute] is recorded to have done decides the outcome. *)
Lemma Run_outcome_of_executed ctx p mods s c md r :
  In (c, md, r) (executed (trace_of (Run ctx p mods s))) ->
  outcome_of (Run ctx p mods s) = lift (result_bind r exitCode).
Proof.
  rewrite Run_eq.
  destruct (metadata (apply_mods mods zero_runOptions)) as [b |].
  - destruct (DecodeAsMetadata b) as [md' | q]; simpl.
    + intros [H | []]. inversion H; subst. reflexivity.
    + intros [].
  - simpl. intros [H | []]. inversion H; subst. reflexivity.
Qed.

(** A run that gets past decoding calls [execute] exactly once. *)
Lemma Run_executes_once ctx p mods s :
  decoding_completes mods = true ->
  exists c md r, executed (trace_of (Run ctx p mods s)) = [(c, md, r)].
Proof.
  unfold decoding_completes. rewrite Run_eq.
  destruct (metadata (apply_mods mods zero_runOptions)) as [b |].
  - destruct (DecodeAsMetadata b) as [md' | q]; simpl; intros H;
      [| discriminate H].
    eexists _, _, _. reflexivity.
  - intros _. simpl. eexists _, _, _. reflexivity.
Qed.

(** ** Exit codes of a run *)




(** C8. The exit code is a function of the error [execute] returns alone:
    two runs whose calls of [execute] return the same error value end the
    same way, namely as [exitCode] of that error, whatever their parent
    contexts, plans, modifiers and cancellation flags are, and whatever
    [execute] does to the flags. *)
Theorem Run_exit_code_depends_on_error_only
    ctx1 p1 mods1 s1 c1 md1 ctx2 p2 mods2 s2 c2 md2 (err : option error) :
  In (c1, md1, Ok err) (executed (trace_of (Run ctx1 p1 mods1 s1))) ->
  In (c2, md2, Ok err) (executed (trace_of (Run ctx2 p2 mods2 s2))) ->
  outcome_of (Run ctx1 p1 mods1 s1) = outcome_of (Run ctx2 p2 mods2 s2) /\
  outcome_of (Run ctx1 p1 mods1 s1) = lift (exitCode err).
Proof.
  intros H1 H2.
  rewrite (Run_outcome_of_executed _ _ _ _ _ _ _ H1).
  rewrite (Run_outcome_of_executed _ _ _ _ _ _ _ H2).
  split; reflexivity.
Qed.

(** C9. Only the dynamic type of the returned error counts, never what it
    wraps: a non-nil error that wraps an explicit-exit-code error or a
    subprocess-termination error without being of either type itself gives
    exit code 1; and the explicit-exit-code case, tried first, decides
    whenever it applies, so an explicit-exit-code error that wraps a
    subprocess-termination error gives its own code. *)
Theorem Run_classifies_by_dynamic_type ctx p mods s :
  (forall c md e,
      In (c, md, Ok (Some e)) (executed (trace_of (Run ctx p mods s))) ->
      plain_error e = true ->
      wraps (fun u => explicit_exit_code_error u
                      || subprocess_termination_error u) e = true ->
      outcome_of (Run ctx p mods s) = Ret 1) /\
  (forall c md e x,
      In (c, md, Ok (Some e)) (executed (trace_of (Run ctx p mods s))) ->
      as_exitError e = Some x ->
      outcome_of (Run ctx p mods s) = lift (exitError_code x)) /\
  (forall c md e N,
      In (c, md, Ok (Some e)) (executed (trace_of (Run ctx p mods s))) ->
      carried_code e = Some N ->
      wraps subprocess_termination_error e = true ->
      outcome_of (Run ctx p mods s) = Ret N).
Proof.
  split; [| split].
  - intros c md e H Hplain _.
    rewrite (Run_outcome_of_executed _ _ _ _ _ _ _ H). unfold result_bind.
    rewrite (exitCode_plain e Hplain). reflexivity.
  - intros c md e x H Hx.
    rewrite (Run_outcome_of_executed _ _ _ _ _ _ _ H). unfold result_bind.
    rewrite (exitCode_first_case e x Hx). reflexivity.
  - intros c md e N H Hcode _.
    rewrite (Run_outcome_of_executed _ _ _ _ _ _ _ H). unfold result_bind.
    rewrite (exitCode_carried e N Hcode). reflexivity.
Qed.

(** ** The execution context of a run *)

Lemma Done_after_cancel id parent s :
  context.Done (context.cancel id s) (context.cancelCtx id parent) = true.
Proof. simpl. rewrite Nat.eqb_refl. reflexivity. Qed.

(** C4 (as the code has it). A call of [Run] whose modifiers all return,
    whose metadata decoding returns and whose parent context is not nil
    creates exactly one context, a child of that parent, hands it to
    [execute] and cancels it as its last step, whether [execute] returns
    nil, returns an error or panics. Any other call, one that panics in a
    modifier (a nil one included), in the decoder or in
    [context.WithCancel] on a nil parent, creates no context. In every case
    each context a call creates is done when the call ends. *)
Theorem Run_context_lifetime
    (ctx : option context.Context) p (mods : list func_value) s :
  (setup_completes ctx mods s = true ->
   exists parent child pre md r,
     ctx = Some parent
     /\ trace_of (Run_values ctx p mods s) =
          pre ++ [EvWithCancel parent child; EvExecute child md r;
                  EvCancel child]
     /\ created pre = []
     /\ created (trace_of (Run_values ctx p mods s)) = [(parent, child)]
     /\ context.parent_of child = Some parent
     /\ context.Done (store_of (Run_values ctx p mods s)) child = true) /\
  (setup_completes ctx mods s = false ->
   created (trace_of (Run_values ctx p mods s)) = []) /\
  (forall pc,
      In pc (created (trace_of (Run_values ctx p mods s))) ->
      context.Done (store_of (Run_values ctx p mods s)) (snd pc) = true).
Proof.
  unfold setup_completes. rewrite Run_values_eq.
  destruct (run_mods mods zero_runOptions s) as [[opts | q0] s0].
  2: { split; [| split].
       - intros H. discriminate H.
       - reflexivity.
       - intros pc []. }
  destruct ctx as [parent |].
  2: { split; [| split].
       - intros H. rewrite andb_false_r in H. discriminate H.
       - intros _. destruct (metadata opts) as [b |]; [| reflexivity].
         destruct (DecodeAsMetadata b); reflexivity.
       - destruct (metadata opts) as [b |]; [| intros pc []].
         destruct (DecodeAsMetadata b); intros pc []. }
  rewrite andb_true_r.
  destruct (metadata opts) as [b |].
  - destruct (DecodeAsMetadata b) as [md | q].
    + split; [| split].
      * intros _.
        exists parent, (context.cancelCtx (context.next_id s0) parent),
               [EvDecode b (Ok md)], md.
        eexists. split; [reflexivity |]. split; [reflexivity |].
        split; [reflexivity |]. split; [reflexivity |].
        split; [reflexivity |]. apply Done_after_cancel.
      * intros H. discriminate H.
      * intros pc [<- | []]. apply Done_after_cancel.
    + split; [| split].
      * intros H. discriminate H.
      * reflexivity.
      * intros pc [].
  - split; [| split].
    + intros _.
      exists parent, (context.cancelCtx (context.next_id s0) parent),
             [], None.
      eexists. split; [reflexivity |]. split; [reflexivity |].
      split; [reflexivity |]. split; [reflexivity |].
      split; [reflexivity |]. apply Done_after_cancel.
    + intros H. discriminate H.
    + intros pc [<- | []]. apply Done_after_cancel.
Qed.

(** ** Process exit *)

Lemma lift_never_exits {A} (r : result A) (n : Z) : lift r <> Exit n.
Proof. destruct r; discriminate. Qed.

Lemma Run_never_exits ctx p mods s :
  exits (trace_of (Run ctx p mods s)) = [] /\
  forall n, outcome_of (Run ctx p mods s) <> Exit n.
Proof.
  rewrite Run_eq.
  destruct (metadata (apply_mods mods zero_runOptions)) as [b |].
  - destruct (DecodeAsMetadata b) as [md | q].
    + split; [reflexivity |]. intros n. apply lift_never_exits.
    + split; [reflexivity |]. intros n. discriminate.
  - split; [reflexivity |]. intros n. apply lift_never_exits.
Qed.

Lemma RunAndExit_eq p mods s :
  RunAndExit p mods s =
  match outcome_of (Run context.Background p mods s) with
  | Ret n => (Exit n, store_of (Run context.Background p mods s),
              trace_of (Run context.Background p mods s) ++ [EvExit n])
  | Panic q => (Panic q, store_of (Run context.Background p mods s),
                trace_of (Run context.Background p mods s))
  | Exit n => (Exit n, store_of (Run context.Background p mods s),
               trace_of (Run context.Background p mods s))
  end.
Proof.
  unfold RunAndExit, RunAndExit_values.
  fold (Run context.Background p mods).
  unfold bind, os_Exit, outcome_of, store_of, trace_of.
  destruct (Run context.Background p mods s) as [[[n | q | n] s1] t1];
    reflexivity.
Qed.

(** C6 (as the code has it). [RunAndExit] never returns to its caller: it calls
    [Run] on the background context and, when [Run] returns a code, exits
    the process with exactly that code, as the last thing it does; when
    [Run] panics the panic goes on through [RunAndExit], which then exits
    nowhere. [Run] itself never exits the process: it returns the exit code
    mapped from the error of [execute] whenever that mapping yields one,
    and otherwise it panics. *)
Theorem RunAndExit_is_the_exit_point :
  (forall p mods s u, outcome_of (RunAndExit p mods s) <> Ret u) /\
  (forall p mods s n,
      outcome_of (Run context.Background p mods s) = Ret n ->
      outcome_of (RunAndExit p mods s) = Exit n /\
      trace_of (RunAndExit p mods s) =
        trace_of (Run context.Background p mods s) ++ [EvExit n]) /\
  (forall p mods s q,
      outcome_of (Run context.Background p mods s) = Panic q ->
      outcome_of (RunAndExit p mods s) = Panic q /\
      exits (trace_of (RunAndExit p mods s)) = []) /\
  (forall ctx p mods s,
      exits (trace_of (Run ctx p mods s)) = [] /\
      (forall n, outcome_of (Run ctx p mods s) <> Exit n) /\
      ((exists n, outcome_of (Run ctx p mods s) = Ret n) \/
       (exists q, outcome_of (Run ctx p mods s) = Panic q))) /\
  (forall ctx p mods s c md err n,
      In (c, md, Ok err) (executed (trace_of (Run ctx p mods s))) ->
      exitCode err = Ok n ->
      outcome_of (Run ctx p mods s) = Ret n).
Proof.
  split; [| split; [| split; [| split]]].
  - intros p mods s u. rewrite RunAndExit_eq.
    destruct (outcome_of (Run context.Background p mods s)); discriminate.
  - intros p mods s n H. rewrite RunAndExit_eq, H. split; reflexivity.
  - intros p mods s q H. rewrite RunAndExit_eq, H. split; [reflexivity |].
    apply Run_never_exits.
  - intros ctx p mods s.
    destruct (Run_never_exits ctx p mods s) as [Ht Ho].
    split; [exact Ht | split; [exact Ho |]].
    destruct (outcome_of (Run ctx p mods s)) as [n | q | n] eqn:E.
    + left. exists n. reflexivity.
    + right. exists q. reflexivity.
    + exfalso. exact (Ho n eq_refl).
  - intros ctx p mods s c md err n H Hcode.
    rewrite (Run_outcome_of_executed _ _ _ _ _ _ _ H). unfold result_bind.
    rewrite Hcode. reflexivity.
Qed.

(** ** Metadata *)

Lemma apply_mods_app (l1 l2 : list modifier) (o : runOptions) :
  apply_mods (l1 ++ l2) o = apply_mods l2 (apply_mods l1 o).
Proof. unfold apply_mods. apply fold_left_app. Qed.

(** The last [WithMetadata] modifier wins. *)
Lemma apply_mods_WithMetadata_last (bs : list bytes) (b : bytes) o :
  metadata (apply_mods (map WithMetadata (bs ++ [b])) o) = Some b.
Proof. rewrite map_app, apply_mods_app. reflexivity. Qed.

(** The trace of a run, by the recorded payload. *)
Lemma Run_trace ctx p mods s :
  trace_of (Run ctx p mods s) =
  match metadata (apply_mods mods zero_runOptions) with
  | None => trace_of (run_body ctx p None s)
  | Some b =>
      EvDecode b (DecodeAsMetadata b) ::
      match DecodeAsMetadata b with
      | Ok md => trace_of (run_body ctx p md s)
      | Panicked _ => []
      end
  end.
Proof.
  rewrite Run_eq.
  destruct (metadata (apply_mods mods zero_runOptions)) as [b |];
    [| reflexivity].
  destruct (DecodeAsMetadata b); reflexivity.
Qed.

Lemma Run_decoded ctx p mods s :
  decoded (trace_of (Run ctx p mods s)) =
  match metadata (apply_mods mods zero_runOptions) with
  | None => []
  | Some b => [b]
  end.
Proof.
  rewrite Run_trace.
  destruct (metadata (apply_mods mods zero_runOptions)) as [b |];
    [| reflexivity].
  destruct (DecodeAsMetadata b); reflexivity.
Qed.

(** C7. [Run] decodes at most once, and a decoding is the first call it
    makes, so it comes before the call of [execute]; the payload decoded is
    the one the options record. When the options record no payload, nothing
    is decoded, [execute] is called with nil metadata, and the run ends as
    the exit-code mapping of what [execute] does. *)
Theorem Run_decodes_once_before_execute ctx p mods s :
  (List.length (decoded (trace_of (Run ctx p mods s))) <= 1)%nat /\
  (forall b,
      In b (decoded (trace_of (Run ctx p mods s))) ->
      metadata (apply_mods mods zero_runOptions) = Some b /\
      exists r t,
        trace_of (Run ctx p mods s) = EvDecode b r :: t /\
        decoded t = [] /\
        (forall x, In x (executed (trace_of (Run ctx p mods s))) ->
                   In x (executed t))) /\
  (metadata (apply_mods mods zero_runOptions) = None ->
   decoded (trace_of (Run ctx p mods s)) = [] /\
   exists c r,
     executed (trace_of (Run ctx p mods s)) = [(c, None, r)] /\
     outcome_of (Run ctx p mods s) = lift (result_bind r exitCode)).
Proof.
  split; [| split].
  - rewrite Run_decoded.
    destruct (metadata (apply_mods mods zero_runOptions)); simpl; lia.
  - intros b. rewrite Run_decoded, Run_trace.
    destruct (metadata (apply_mods mods zero_runOptions)) as [b' |];
      [| intros []].
    intros [<- | []]. split; [reflexivity |].
    eexists _, _. split; [reflexivity |].
    destruct (DecodeAsMetadata b'); simpl; split; auto.
  - intros H. rewrite Run_decoded, Run_eq, H.
    split; [reflexivity |]. eexists _, _. split; reflexivity.
Qed.

(** C10. [WithMetadata] of the nil slice is not the absence of metadata:
    the options record the nil payload as present and [Run] starts by
    decoding it, while without a modifier nothing is decoded and [execute]
    gets nil metadata; modifiers apply in order, so of several
    [WithMetadata] modifiers the last one's payload is the one decoded. *)
Theorem WithMetadata_nil_is_not_absence :
  metadata (apply_mods [WithMetadata nil_slice] zero_runOptions)
    = Some nil_slice /\
  metadata (apply_mods [] zero_runOptions) = None /\
  (forall ctx p s,
      exists t,
        trace_of (Run ctx p [WithMetadata nil_slice] s) =
          EvDecode nil_slice (DecodeAsMetadata nil_slice) :: t /\
        decoded t = []) /\
  (forall ctx p s,
      decoded (trace_of (Run ctx p [] s)) = [] /\
      exists c r, executed (trace_of (Run ctx p [] s)) = [(c, None, r)]) /\
  (forall m ms o, apply_mods (m :: ms) o = apply_mods ms (m o)) /\
  (forall ctx p s bs b,
      metadata (apply_mods (map WithMetadata (bs ++ [b])) zero_runOptions)
        = Some b /\
      decoded (trace_of (Run ctx p (map WithMetadata (bs ++ [b])) s)) = [b]).
Proof.
  split; [reflexivity |]. split; [reflexivity |].
  split; [| split; [| split]].
  - intros ctx p s. rewrite Run_trace. simpl.
    eexists. split; [reflexivity |].
    destruct (DecodeAsMetadata nil_slice); reflexivity.
  - intros ctx p s. rewrite Run_decoded, Run_eq. simpl.
    split; [reflexivity |]. eexists _, _. reflexivity.
  - reflexivity.
  - intros ctx p s bs b. rewrite Run_decoded.
    rewrite apply_mods_WithMetadata_last. split; reflexivity.
Qed.

(** ** Plan construction *)

Lemma Func_eq (f : reflect.any) :
  Func f =
  match reflect.TypeOf f with
  | None => Panicked nil_dereference
  | Some t =>
      if reflect.Kind_eqb (reflect.Kind_of t) reflect.Func
      then Ok (mk_funcPlan
                 (mk_reflection None (Some t) (Some (reflect.ValueOf f))))
      else Panicked not_a_func
  end.
Proof.
  unfold Func. destruct (reflect.TypeOf f) as [t |]; simpl; [| reflexivity].
  destruct (reflect.Kind_eqb (reflect.Kind_of t) reflect.Func); reflexivity.
Qed.

Lemma Struct_eq (T : reflect.rtype) (subcommands : list structPlan) :
  Struct T subcommands =
  if is_struct T
  then Ok (mk_structPlan
             (mk_reflection
                (Some (mk_reflection None (Some (reflect.TPointer T)) None))
                (Some T) None)
             subcommands)
  else Panicked not_a_struct.
Proof.
  unfold Struct, is_struct. simpl.
  destruct (reflect.Kind_eqb (reflect.Kind_of T) reflect.Struct); reflexivity.
Qed.

(** C5. [Func(f)] fails exactly when [f] is not a function, and for an [f]
    of any other kind the failure is the assertion the specification calls
    InvalidShapeKind; [Struct] on [T] fails exactly when [T] is not a struct
    type, with the same kind of failure. On a function and on a struct type
    the builders return the plan made of what they inspected. *)
Theorem Func_and_Struct_fail_on_other_kinds :
  (forall f, (exists q, Func f = Panicked q) <-> is_func f = false) /\
  (forall f t,
      reflect.TypeOf f = Some t ->
      reflect.Kind_of t <> reflect.Func ->
      Func f = Panicked not_a_func /\ InvalidShapeKind not_a_func = true) /\
  (forall f,
      is_func f = true ->
      Func f = Ok (mk_funcPlan
                     (mk_reflection None (reflect.TypeOf f)
                                    (Some (reflect.ValueOf f))))) /\
  (forall T subs,
      (exists q, Struct T subs = Panicked q) <->
      reflect.Kind_of T <> reflect.Struct) /\
  (forall T subs,
      reflect.Kind_of T <> reflect.Struct ->
      Struct T subs = Panicked not_a_struct /\
      InvalidShapeKind not_a_struct = true) /\
  (forall T subs,
      reflect.Kind_of T = reflect.Struct ->
      Struct T subs =
      Ok (mk_structPlan
            (mk_reflection
               (Some (mk_reflection None (Some (reflect.TPointer T)) None))
               (Some T) None)
            subs)).
Proof.
  split; [| split; [| split; [| split; [| split]]]].
  - intros f. rewrite Func_eq. unfold is_func.
    destruct (reflect.TypeOf f) as [t |].
    + destruct (reflect.Kind_eqb (reflect.Kind_of t) reflect.Func).
      * split; [intros [q H]; discriminate H | intros H; discriminate H].
      * split; [reflexivity | intros _; eexists; reflexivity].
    + split; [reflexivity | intros _; eexists; reflexivity].
  - intros f t Ht Hk. rewrite Func_eq, Ht.
    destruct (reflect.Kind_eqb (reflect.Kind_of t) reflect.Func) eqn:E.
    + apply Kind_eqb_eq in E. contradiction.
    + split; reflexivity.
  - intros f. rewrite Func_eq. unfold is_func.
    destruct (reflect.TypeOf f) as [t |]; [| intros H; discriminate H].
    intros ->. reflexivity.
  - intros T subs. rewrite Struct_eq. unfold is_struct.
    destruct (reflect.Kind_eqb (reflect.Kind_of T) reflect.Struct) eqn:E.
    + apply Kind_eqb_eq in E.
      split; [intros [q H]; discriminate H | intros H; contradiction].
    + split; [| intros _; eexists; reflexivity].
      intros _ Hk. apply Kind_eqb_eq in Hk. congruence.
  - intros T subs Hk. rewrite Struct_eq. unfold is_struct.
    destruct (reflect.Kind_eqb (reflect.Kind_of T) reflect.Struct) eqn:E.
    + apply Kind_eqb_eq in E. contradiction.
    + split; reflexivity.
  - intros T subs Hk. rewrite Struct_eq. unfold is_struct.
    apply Kind_eqb_eq in Hk. rewrite Hk. reflexivity.
Qed.

(** ** Further properties of the package *)

Lemma Done_ext (s s' : context.store) (c : context.Context) :
  context.canceled s = context.canceled s' ->
  context.Done s c = context.Done s' c.
Proof.
  intros H. induction c as [| id parent IH]; simpl; [reflexivity |].
  rewrite H, IH. reflexivity.
Qed.


Lemma fresh_name_not_canceled (s : context.store) :
  store_ok s = true ->
  existsb (Nat.eqb (context.next_id s)) (context.canceled s) = false.
Proof.
  unfold store_ok. generalize (context.next_id s) as n.
  induction (context.canceled s) as [| id l IH]; simpl; intros n H;
    [reflexivity |].
  apply andb_prop in H. destruct H as [Hlt Hl].
  apply Nat.ltb_lt in Hlt. rewrite (IH n Hl).
  destruct (Nat.eqb_spec n id) as [E | _]; [lia | reflexivity].
Qed.

(** X1. A call of [Run] whose modifiers all return, whose decoding returns
    and whose parent context is not nil calls [execute] exactly once, on the
    fresh child of that parent, in a store where nothing more is canceled
    than the modifiers left: the child is done exactly when the parent
    already was, so [Run] neither checks nor changes the cancellation of
    the context it is given before the plan runs. Any other call never
    calls [execute]. *)
Theorem Run_execute_context
    (ctx : option context.Context) p (mods : list func_value) s :
  (setup_completes ctx mods s = true ->
   exists parent md,
     ctx = Some parent /\
     executed (trace_of (Run_values ctx p mods s)) =
       [(context.cancelCtx
           (context.next_id (snd (run_mods mods zero_runOptions s))) parent,
         md,
         fst (execute p
                (context.cancelCtx
                   (context.next_id (snd (run_mods mods zero_runOptions s)))
                   parent)
                md
                (context.mk_store
                   (S (context.next_id
                         (snd (run_mods mods zero_runOptions s))))
                   (context.canceled
                      (snd (run_mods mods zero_runOptions s))))))] /\
     (store_ok (snd (run_mods mods zero_runOptions s)) = true ->
      context.Done
        (context.mk_store
           (S (context.next_id (snd (run_mods mods zero_runOptions s))))
           (context.canceled (snd (run_mods mods zero_runOptions s))))
        (context.cancelCtx
           (context.next_id (snd (run_mods mods zero_runOptions s))) parent)
      = context.Done (snd (run_mods mods zero_runOptions s)) parent)) /\
  (setup_completes ctx mods s = false ->
   executed (trace_of (Run_values ctx p mods s)) = []).
Proof.
  unfold setup_completes. rewrite Run_values_eq.
  destruct (run_mods mods zero_runOptions s) as [[opts | q0] s0]; simpl snd.
  2: { split; [intros H; discriminate H | reflexivity]. }
  assert (HD : forall parent,
             store_ok s0 = true ->
             context.Done
               (context.mk_store (S (context.next_id s0))
                                 (context.canceled s0))
               (context.cancelCtx (context.next_id s0) parent)
             = context.Done s0 parent).
  { intros parent Hs. simpl. rewrite (fresh_name_not_canceled s0 Hs). simpl.
    apply Done_ext. reflexivity. }
  destruct ctx as [parent |].
  2: { split.
       - intros H. rewrite andb_false_r in H. discriminate H.
       - intros _. destruct (metadata opts) as [b |]; [| reflexivity].
         destruct (DecodeAsMetadata b); reflexivity. }
  rewrite andb_true_r.
  destruct (metadata opts) as [b |].
  - destruct (DecodeAsMetadata b) as [md | q].
    + split; [| intros H; discriminate H].
      intros _. exists parent, md.
      split; [reflexivity |]. split; [reflexivity | apply HD].
    + split; [intros H; discriminate H | reflexivity].
  - split; [| intros H; discriminate H].
    intros _. exists parent, None.
    split; [reflexivity |]. split; [reflexivity | apply HD].
Qed.



(** X4. A panic of [execute] is not recovered: [Run] panics with the same
    value, after canceling the context as its last step. *)
Theorem Run_propagates_panic_of_execute ctx p mods s c md q :
  In (c, md, Panicked q) (executed (trace_of (Run ctx p mods s))) ->
  outcome_of (Run ctx p mods s) = Panic q /\
  (exists pre, trace_of (Run ctx p mods s) = pre ++ [EvCancel c]) /\
  context.Done (store_of (Run ctx p mods s)) c = true.
Proof.
  intros H.
  split; [rewrite (Run_outcome_of_executed _ _ _ _ _ _ _ H); reflexivity |].
  revert H. rewrite Run_eq.
  destruct (metadata (apply_mods mods zero_runOptions)) as [b |].
  - destruct (DecodeAsMetadata b) as [md' | q']; simpl; [| intros []].
    intros [H | []]. inversion H; subst. split.
    + eexists [_; _; _]. reflexivity.
    + apply Done_after_cancel.
  - simpl. intros [H | []]. inversion H; subst. split.
    + eexists [_; _]. reflexivity.
    + apply Done_after_cancel.
Qed.

(** X5. [exitCode] panics on exactly two inputs, the nil pointers of the
    two types of its type switch, and then with a nil dereference. *)
Theorem exitCode_panics_on_nil_pointers_only (err : option error) (q : panic) :
  exitCode err = Panicked q <->
  q = nil_dereference /\
  (err = Some (exitError_ptr None) \/ err = Some (exec_ExitError_ptr None)).
Proof.
  split.
  - destruct err as [[[x |] | [x |] | n m us] |]; simpl; intros H;
      try discriminate H; inversion H; auto.
  - intros [-> [-> | ->]]; reflexivity.
Qed.

(** X6. A non-nil error maps to exit code 0 exactly when it carries code 0
    explicitly or is the error of a subprocess that exited with status 0;
    every other non-nil error maps to a code different from 0. *)
Theorem exitCode_zero (e : error) :
  exitCode (Some e) = Ok 0 <->
  carried_code e = Some 0 \/ subprocess_exit_code e = Some 0.
Proof.
  destruct e as [[[n l] |] | [[[[pid st] |] err] |] | n m us]; simpl.
  - split; [intros H; left; congruence | intros [H | H]; congruence].
  - split; [intros H; discriminate H | intros [H | H]; discriminate H].
  - destruct st as [n | n]; simpl.
    + split; [intros H; right; congruence | intros [H | H]; congruence].
    + split; [intros H; discriminate H | intros [H | H]; discriminate H].
  - split; [intros H; discriminate H | intros [H | H]; discriminate H].
  - split; [intros H; discriminate H | intros [H | H]; discriminate H].
  - split; [intros H; discriminate H | intros [H | H]; discriminate H].
Qed.

(** X7. The error of a subprocess without an exit status (no process
    state, or a process ended by a signal) maps to exit code -1. *)
Theorem exitCode_without_exit_status (x : exec.ExitError) :
  subprocess_exit_code (exec_ExitError_ptr (Some x)) = None ->
  exitCode (Some (exec_ExitError_ptr (Some x))) = Ok (-1).
Proof.
  destruct x as [[[pid st] |] err]; simpl; [| reflexivity].
  destruct st as [n | n]; simpl; intros H; [discriminate H | reflexivity].
Qed.

Lemma run_mods_app (l1 l2 : list func_value) opts s :
  run_mods (l1 ++ l2) opts s =
  match run_mods l1 opts s with
  | (Ok opts', s') => run_mods l2 opts' s'
  | (Panicked q, s') => (Panicked q, s')
  end.
Proof.
  revert opts s. induction l1 as [| m rest IH]; intros opts s; simpl;
    [reflexivity |].
  destruct m as [f |]; [| reflexivity].
  destruct (f opts s) as [[opts' | q] s']; [apply IH | reflexivity].
Qed.

(** X8. A [WithMetadata] modifier overrides whatever the modifiers before
    it did to the options, provided they all return: the run with it last
    is then the run with it alone, from the store those modifiers left.
    When one of the modifiers before it is nil or panics, [Run] panics with
    that value before anything is decoded. *)
Theorem Run_last_WithMetadata_wins
    (ctx : option context.Context) p (mods : list func_value) b s :
  (forall opts s0,
      run_mods mods zero_runOptions s = (Ok opts, s0) ->
      Run_values ctx p (mods ++ [returning (WithMetadata b)]) s
      = Run_values ctx p [returning (WithMetadata b)] s0) /\
  (forall q s0,
      run_mods mods zero_runOptions s = (Panicked q, s0) ->
      Run_values ctx p (mods ++ [returning (WithMetadata b)]) s
      = (Panic q, s0, [])).
Proof.
  split.
  - intros opts s0 H. rewrite !Run_values_eq, run_mods_app, H. reflexivity.
  - intros q s0 H. rewrite Run_values_eq, run_mods_app, H. reflexivity.
Qed.


(** X10. When [RunAndExit] exits the process, the context of the run has
    been canceled before: the cancel call is the last call before the exit
    call, the context is a child of the background context, and it is the
    only exit call made. *)
Theorem RunAndExit_cancels_before_exit p mods s n :
  outcome_of (RunAndExit p mods s) = Exit n ->
  exists pre child,
    trace_of (RunAndExit p mods s) = pre ++ [EvCancel child; EvExit n] /\
    context.parent_of child = Some context.Background /\
    context.Done (store_of (RunAndExit p mods s)) child = true /\
    exits (trace_of (RunAndExit p mods s)) = [n].
Proof.
  rewrite RunAndExit_eq.
  destruct (Run_never_exits context.Background p mods s) as [Hx Hne].
  destruct (outcome_of (Run context.Background p mods s)) as [k | q | k] eqn:E;
    intros H; [| discriminate H | exfalso; exact (Hne k eq_refl)].
  inversion H; subst k. clear H.
  revert E Hx. rewrite Run_eq.
  destruct (metadata (apply_mods mods zero_runOptions)) as [b |].
  - destruct (DecodeAsMetadata b) as [md | q]; [| intros E; discriminate E].
    intros _ _.
    exists [EvDecode b (Ok md);
            EvWithCancel context.Background
              (context.cancelCtx (context.next_id s) context.Background);
            EvExecute
              (context.cancelCtx (context.next_id s) context.Background) md
              (fst (execute p
                      (context.cancelCtx (context.next_id s)
                                         context.Background) md
                      (context.mk_store (S (context.next_id s))
                                        (context.canceled s))))],
           (context.cancelCtx (context.next_id s) context.Background).
    split; [reflexivity |]. split; [reflexivity |].
    split; [apply Done_after_cancel | reflexivity].
  - intros _ _.
    exists [EvWithCancel context.Background
              (context.cancelCtx (context.next_id s) context.Background);
            EvExecute
              (context.cancelCtx (context.next_id s) context.Background) None
              (fst (execute p
                      (context.cancelCtx (context.next_id s)
                                         context.Background) None
                      (context.mk_store (S (context.next_id s))
                                        (context.canceled s))))],
           (context.cancelCtx (context.next_id s) context.Background).
    split; [reflexivity |]. split; [reflexivity |].
    split; [apply Done_after_cancel | reflexivity].
Qed.

End Orchestrator.

Arguments trace_of {Metadata A} r.
Arguments outcome_of {Metadata A} r.
Arguments store_of {Metadata A} r.
Arguments created {Metadata} t.
Arguments decoded {Metadata} t.
Arguments executed {Metadata} t.
Arguments exits {Metadata} t.

(** ** Concrete runs *)

Example Func_of_nil : Func None = Panicked nil_dereference.
Proof. reflexivity. Qed.

Example Func_of_int : Func sample_int = Panicked not_a_func.
Proof. reflexivity. Qed.

Example Struct_of_interface :
  Struct (reflect.TInterface []) [] = Panicked not_a_struct.
Proof. reflexivity. Qed.

Example exitCode_of_wrapped_subprocess :
  exitCode (Some wrapped_subprocess_3) = Ok 1 /\
  exitCode (Some subprocess_3) = Ok 3 /\
  exitCode (Some exit_7_of_subprocess_3) = Ok 7.
Proof. repeat split. Qed.

Example exitCode_of_nil_pointers :
  exitCode (Some (exitError_ptr None)) = Panicked nil_dereference /\
  exitCode (Some (exec_ExitError_ptr None)) = Panicked nil_dereference /\
  exitCode (Some (exec_ExitError_ptr
                    (Some (exec.mk_ExitError None nil_slice)))) = Ok (-1).
Proof. repeat split. Qed.

Example Run_with_metadata :
  Run sample_Metadata sample_decode context.Background
      (constant_plan sample_Metadata (Ok (Some boom)))
      [WithMetadata (slice [Byte.x01])] empty_store
  = (Ret 1, context.mk_store 1 [0%nat],
     [EvDecode sample_Metadata (slice [Byte.x01]) (Ok (Some [Byte.x01]));
      EvWithCancel sample_Metadata context.Background
                   (context.cancelCtx 0 context.Background);
      EvExecute sample_Metadata (context.cancelCtx 0 context.Background)
                (Some [Byte.x01]) (Ok (Some boom));
      EvCancel sample_Metadata (context.cancelCtx 0 context.Background)]).
Proof. reflexivity. Qed.

Example RunAndExit_with_exit_7 :
  outcome_of (RunAndExit sample_Metadata sample_decode
                (constant_plan sample_Metadata (Ok (Some exit_7)))
                [] empty_store) = Exit 7.
Proof. reflexivity. Qed.




(** The second run starts from a parent that is already canceled, decodes
    metadata, and its plan cancels once more. *)
Lemma Run_exit_code_depends_on_error_only_witness :
  outcome_of (Run sample_Metadata sample_decode context.Background
                (constant_plan sample_Metadata (Ok (Some exit_7)))
                [] empty_store)
  = outcome_of (Run sample_Metadata sample_decode
                  (context.cancelCtx 0 context.Background)
                  (canceling_plan sample_Metadata 1 (Some exit_7))
                  [WithMetadata (slice [Byte.x01])]
                  (context.mk_store 1 [0%nat]))
  /\ outcome_of (Run sample_Metadata sample_decode context.Background
                   (constant_plan sample_Metadata (Ok (Some exit_7)))
                   [] empty_store)
     = lift (exitCode (Some exit_7)).
Proof.
  apply (Run_exit_code_depends_on_error_only
           sample_Metadata sample_decode
           context.Background
           (constant_plan sample_Metadata (Ok (Some exit_7))) [] empty_store
           (context.cancelCtx 0 context.Background) None
           (context.cancelCtx 0 context.Background)
           (canceling_plan sample_Metadata 1 (Some exit_7))
           [WithMetadata (slice [Byte.x01])] (context.mk_store 1 [0%nat])
           (context.cancelCtx 1 (context.cancelCtx 0 context.Background))
           (Some [Byte.x01]) (Some exit_7)).
  - simpl. left. reflexivity.
  - simpl. left. reflexivity.
Defined.

Lemma Run_classifies_by_dynamic_type_witness :
  outcome_of (Run sample_Metadata sample_decode context.Background
                (constant_plan sample_Metadata (Ok (Some wrapped_subprocess_3)))
                [] empty_store)
    = Ret 1 /\
  outcome_of (Run sample_Metadata sample_decode context.Background
                (constant_plan sample_Metadata (Ok (Some wrapped_exit_7)))
                [] empty_store)
    = Ret 1 /\
  outcome_of (Run sample_Metadata sample_decode context.Background
                (constant_plan sample_Metadata
                               (Ok (Some exit_7_of_subprocess_3)))
                [] empty_store)
    = lift (exitError_code (Some (mk_exitError 7 [subprocess_3]))) /\
  outcome_of (Run sample_Metadata sample_decode context.Background
                (constant_plan sample_Metadata
                               (Ok (Some exit_7_of_subprocess_3)))
                [] empty_store)
    = Ret 7.
Proof.
  split; [| split; [| split]].
  - apply (proj1 (Run_classifies_by_dynamic_type
                    sample_Metadata sample_decode context.Background
                    (constant_plan sample_Metadata
                                   (Ok (Some wrapped_subprocess_3)))
                    [] empty_store)
                 (context.cancelCtx 0 context.Background) None
                 wrapped_subprocess_3).
    + simpl. left. reflexivity.
    + reflexivity.
    + reflexivity.
  - apply (proj1 (Run_classifies_by_dynamic_type
                    sample_Metadata sample_decode context.Background
                    (constant_plan sample_Metadata (Ok (Some wrapped_exit_7)))
                    [] empty_store)
                 (context.cancelCtx 0 context.Background) None
                 wrapped_exit_7).
    + simpl. left. reflexivity.
    + reflexivity.
    + reflexivity.
  - apply (proj1 (proj2 (Run_classifies_by_dynamic_type
                    sample_Metadata sample_decode context.Background
                    (constant_plan sample_Metadata
                                   (Ok (Some exit_7_of_subprocess_3)))
                    [] empty_store))
                 (context.cancelCtx 0 context.Background) None
                 exit_7_of_subprocess_3).
    + simpl. left. reflexivity.
    + reflexivity.
  - apply (proj2 (proj2 (Run_classifies_by_dynamic_type
                    sample_Metadata sample_decode context.Background
                    (constant_plan sample_Metadata
                                   (Ok (Some exit_7_of_subprocess_3)))
                    [] empty_store))
                 (context.cancelCtx 0 context.Background) None
                 exit_7_of_subprocess_3 7).
    + simpl. left. reflexivity.
    + reflexivity.
    + reflexivity.
Defined.

(** [Run] with a payload the decoder rejects: the decoding panics and no
    context is ever created, so not every call of [Run] creates one. *)
Lemma Run_with_rejected_metadata_creates_no_context :
  created (trace_of (Run sample_Metadata sample_decode context.Background
                         (constant_plan sample_Metadata (Ok None))
                         [WithMetadata nil_slice] empty_store)) = [] /\
  ~ (forall (Metadata : Type)
            (DecodeAsMetadata : bytes -> result (option Metadata))
            ctx p mods s,
        exists child,
          created (trace_of (Run Metadata DecodeAsMetadata ctx p mods s))
          = [(ctx, child)]).
Proof.
  split; [reflexivity |].
  intros H.
  destruct (H sample_Metadata sample_decode context.Background
              (constant_plan sample_Metadata (Ok None))
              [WithMetadata nil_slice] empty_store) as [child Hc].
  discriminate Hc.
Qed.

Lemma Run_context_lifetime_witness :
  (exists parent child pre md r,
      Some context.Background = Some parent
      /\ trace_of (Run_values sample_Metadata sample_decode
                     (Some context.Background)
                     (constant_plan sample_Metadata (Ok (Some boom)))
                     [returning (WithMetadata (slice [Byte.x01]))]
                     empty_store)
         = pre ++ [EvWithCancel sample_Metadata parent child;
                   EvExecute sample_Metadata child md r;
                   EvCancel sample_Metadata child]
      /\ created pre = []
      /\ created (trace_of (Run_values sample_Metadata sample_decode
                              (Some context.Background)
                              (constant_plan sample_Metadata
                                             (Ok (Some boom)))
                              [returning (WithMetadata (slice [Byte.x01]))]
                              empty_store))
         = [(parent, child)]
      /\ context.parent_of child = Some parent
      /\ context.Done
           (store_of (Run_values sample_Metadata sample_decode
                        (Some context.Background)
                        (constant_plan sample_Metadata (Ok (Some boom)))
                        [returning (WithMetadata (slice [Byte.x01]))]
                        empty_store)) child = true) /\
  created (trace_of (Run_values sample_Metadata sample_decode
                       (Some context.Background)
                       (constant_plan sample_Metadata (Ok None))
                       [returning (WithMetadata nil_slice)] empty_store))
    = [] /\
  created (trace_of (Run_values sample_Metadata sample_decode
                       None
                       (constant_plan sample_Metadata (Ok None))
                       [] empty_store))
    = [] /\
  created (trace_of (Run_values sample_Metadata sample_decode
                       (Some context.Background)
                       (constant_plan sample_Metadata (Ok None))
                       [None] empty_store))
    = [] /\
  context.Done
    (store_of (Run_values sample_Metadata sample_decode
                 (Some context.Background)
                 (constant_plan sample_Metadata
                                (Panicked (panic_value "unexpected")))
                 [] empty_store))
    (context.cancelCtx 0 context.Background) = true.
Proof.
  split; [| split; [| split; [| split]]].
  - apply (proj1 (Run_context_lifetime
                    sample_Metadata sample_decode (Some context.Background)
                    (constant_plan sample_Metadata (Ok (Some boom)))
                    [returning (WithMetadata (slice [Byte.x01]))]
                    empty_store)).
    reflexivity.
  - apply (proj1 (proj2 (Run_context_lifetime
                    sample_Metadata sample_decode (Some context.Background)
                    (constant_plan sample_Metadata (Ok None))
                    [returning (WithMetadata nil_slice)] empty_store))).
    reflexivity.
  - apply (proj1 (proj2 (Run_context_lifetime
                    sample_Metadata sample_decode None
                    (constant_plan sample_Metadata (Ok None))
                    [] empty_store))).
    reflexivity.
  - apply (proj1 (proj2 (Run_context_lifetime
                    sample_Metadata sample_decode (Some context.Background)
                    (constant_plan sample_Metadata (Ok None))
                    [None] empty_store))).
    reflexivity.
  - apply (proj2 (proj2 (Run_context_lifetime
                    sample_Metadata sample_decode (Some context.Background)
                    (constant_plan sample_Metadata
                                   (Panicked (panic_value "unexpected")))
                    [] empty_store))
                 (context.Background,
                  context.cancelCtx 0 context.Background)).
    simpl. left. reflexivity.
Defined.

(** [Run] on a plan whose [execute] panics, and [Run] on a payload the
    decoder rejects: neither call returns an exit code, so [Run] does not
    always return one. *)
Lemma Run_does_not_always_return :
  outcome_of (Run sample_Metadata sample_decode context.Background
                  (constant_plan sample_Metadata
                                 (Panicked (panic_value "unexpected")))
                  [] empty_store)
    = Panic (panic_value "unexpected") /\
  outcome_of (Run sample_Metadata sample_decode context.Background
                  (constant_plan sample_Metadata (Ok None))
                  [WithMetadata nil_slice] empty_store)
    = Panic (assert_failed "EOF") /\
  ~ (forall (Metadata : Type)
            (DecodeAsMetadata : bytes -> result (option Metadata))
            ctx p mods s,
        exists n,
          outcome_of (Run Metadata DecodeAsMetadata ctx p mods s) = Ret n).
Proof.
  split; [reflexivity |]. split; [reflexivity |].
  intros H.
  destruct (H sample_Metadata sample_decode context.Background
              (constant_plan sample_Metadata
                             (Panicked (panic_value "unexpected")))
              [] empty_store) as [n Hn].
  discriminate Hn.
Qed.

Lemma RunAndExit_is_the_exit_point_witness :
  (outcome_of (RunAndExit sample_Metadata sample_decode
                 (constant_plan sample_Metadata (Ok (Some exit_7)))
                 [] empty_store) = Exit 7 /\
   trace_of (RunAndExit sample_Metadata sample_decode
               (constant_plan sample_Metadata (Ok (Some exit_7)))
               [] empty_store)
   = trace_of (Run sample_Metadata sample_decode context.Background
                   (constant_plan sample_Metadata (Ok (Some exit_7)))
                   [] empty_store)
     ++ [EvExit sample_Metadata 7]) /\
  (outcome_of (RunAndExit sample_Metadata sample_decode
                 (constant_plan sample_Metadata
                                (Panicked (panic_value "unexpected")))
                 [] empty_store) = Panic (panic_value "unexpected") /\
   exits (trace_of (RunAndExit sample_Metadata sample_decode
                      (constant_plan sample_Metadata
                                     (Panicked (panic_value "unexpected")))
                      [] empty_store)) = []) /\
  outcome_of (Run sample_Metadata sample_decode context.Background
                  (constant_plan sample_Metadata (Ok (Some boom)))
                  [] empty_store) = Ret 1.
Proof.
  split; [| split].
  - apply (proj1 (proj2 (RunAndExit_is_the_exit_point
                           sample_Metadata sample_decode))
                 (constant_plan sample_Metadata (Ok (Some exit_7)))
                 [] empty_store 7).
    reflexivity.
  - apply (proj1 (proj2 (proj2 (RunAndExit_is_the_exit_point
                                  sample_Metadata sample_decode)))
                 (constant_plan sample_Metadata
                                (Panicked (panic_value "unexpected")))
                 [] empty_store (panic_value "unexpected")).
    reflexivity.
  - apply (proj2 (proj2 (proj2 (proj2 (RunAndExit_is_the_exit_point
                                         sample_Metadata sample_decode))))
                 context.Background
                 (constant_plan sample_Metadata (Ok (Some boom)))
                 [] empty_store
                 (context.cancelCtx 0 context.Background) None
                 (Some boom) 1).
    + simpl. left. reflexivity.
    + reflexivity.
Defined.

Lemma Run_decodes_once_before_execute_witness :
  (metadata (apply_mods [WithMetadata (slice [Byte.x01])] zero_runOptions)
     = Some (slice [Byte.x01]) /\
   exists r t,
     trace_of (Run sample_Metadata sample_decode context.Background
                   (constant_plan sample_Metadata (Ok None))
                   [WithMetadata (slice [Byte.x01])] empty_store)
     = EvDecode sample_Metadata (slice [Byte.x01]) r :: t /\
     decoded t = [] /\
     (forall x,
         In x (executed
                 (trace_of (Run sample_Metadata sample_decode
                                context.Background
                                (constant_plan sample_Metadata (Ok None))
                                [WithMetadata (slice [Byte.x01])]
                                empty_store))) ->
         In x (executed t))) /\
  (decoded (trace_of (Run sample_Metadata sample_decode context.Background
                          (constant_plan sample_Metadata (Ok None))
                          [] empty_store)) = [] /\
   exists c r,
     executed (trace_of (Run sample_Metadata sample_decode context.Background
                             (constant_plan sample_Metadata (Ok None))
                             [] empty_store)) = [(c, None, r)] /\
     outcome_of (Run sample_Metadata sample_decode context.Background
                     (constant_plan sample_Metadata (Ok None))
                     [] empty_store) = lift (result_bind r exitCode)).
Proof.
  split.
  - apply (proj1 (proj2 (Run_decodes_once_before_execute
                    sample_Metadata sample_decode context.Background
                    (constant_plan sample_Metadata (Ok None))
                    [WithMetadata (slice [Byte.x01])] empty_store))
                 (slice [Byte.x01])).
    simpl. left. reflexivity.
  - apply (proj2 (proj2 (Run_decodes_once_before_execute
                    sample_Metadata sample_decode context.Background
                    (constant_plan sample_Metadata (Ok None))
                    [] empty_store))).
    reflexivity.
Defined.

Lemma Func_and_Struct_fail_on_other_kinds_witness :
  (exists q, Func sample_int = Panicked q) /\
  (Func sample_int = Panicked not_a_func /\
   InvalidShapeKind not_a_func = true) /\
  Func sample_func =
    Ok (mk_funcPlan
          (mk_reflection None (reflect.TypeOf sample_func)
                         (Some (reflect.ValueOf sample_func)))) /\
  (Struct (reflect.TBasic reflect.t_string) [] = Panicked not_a_struct /\
   InvalidShapeKind not_a_struct = true) /\
  Struct sample_struct [] =
    Ok (mk_structPlan
          (mk_reflection
             (Some (mk_reflection None
                      (Some (reflect.TPointer sample_struct)) None))
             (Some sample_struct) None)
          []).
Proof.
  split; [| split; [| split; [| split]]].
  - apply (proj2 (proj1 Func_and_Struct_fail_on_other_kinds sample_int)).
    reflexivity.
  - apply (proj1 (proj2 Func_and_Struct_fail_on_other_kinds)
                 sample_int (reflect.TBasic reflect.t_int)).
    + reflexivity.
    + simpl. discriminate.
  - apply (proj1 (proj2 (proj2 Func_and_Struct_fail_on_other_kinds))
                 sample_func).
    reflexivity.
  - apply (proj1 (proj2 (proj2 (proj2 (proj2
             Func_and_Struct_fail_on_other_kinds))))
                 (reflect.TBasic reflect.t_string) []).
    simpl. discriminate.
  - apply (proj2 (proj2 (proj2 (proj2 (proj2
             Func_and_Struct_fail_on_other_kinds))))
                 sample_struct []).
    reflexivity.
Defined.

(** ** Concrete runs for the further properties *)

(** The parent is already canceled when [Run] is called; then a call on a
    nil parent, and a call with a nil modifier. *)
Lemma Run_execute_context_witness :
  (exists parent md,
      Some (context.cancelCtx 0 context.Background) = Some parent /\
      executed (trace_of (Run_values sample_Metadata sample_decode
                            (Some (context.cancelCtx 0 context.Background))
                            (constant_plan sample_Metadata (Ok None))
                            [returning (WithMetadata (slice [Byte.x01]))]
                            (context.mk_store 1 [0%nat])))
      = [(context.cancelCtx 1 parent, md,
          fst (execute sample_Metadata
                 (constant_plan sample_Metadata (Ok None))
                 (context.cancelCtx 1 parent)
                 md (context.mk_store 2 [0%nat])))] /\
      (store_ok (context.mk_store 1 [0%nat]) = true ->
       context.Done (context.mk_store 2 [0%nat])
                    (context.cancelCtx 1 parent)
       = context.Done (context.mk_store 1 [0%nat]) parent)) /\
  executed (trace_of (Run_values sample_Metadata sample_decode None
                        (constant_plan sample_Metadata (Ok None))
                        [] empty_store)) = [] /\
  executed (trace_of (Run_values sample_Metadata sample_decode
                        (Some context.Background)
                        (constant_plan sample_Metadata (Ok None))
                        [None; returning (WithMetadata (slice [Byte.x01]))]
                        empty_store)) = [].
Proof.
  split; [| split].
  - apply (proj1 (Run_execute_context
                    sample_Metadata sample_decode
                    (Some (context.cancelCtx 0 context.Background))
                    (constant_plan sample_Metadata (Ok None))
                    [returning (WithMetadata (slice [Byte.x01]))]
                    (context.mk_store 1 [0%nat]))).
    reflexivity.
  - apply (proj2 (Run_execute_context
                    sample_Metadata sample_decode None
                    (constant_plan sample_Metadata (Ok None))
                    [] empty_store)).
    reflexivity.
  - apply (proj2 (Run_execute_context
                    sample_Metadata sample_decode (Some context.Background)
                    (constant_plan sample_Metadata (Ok None))
                    [None; returning (WithMetadata (slice [Byte.x01]))]
                    empty_store)).
    reflexivity.
Defined.



Lemma Run_propagates_panic_of_execute_witness :
  outcome_of (Run sample_Metadata sample_decode context.Background
                  (constant_plan sample_Metadata
                                 (Panicked (panic_value "unexpected")))
                  [] empty_store)
    = Panic (panic_value "unexpected") /\
  (exists pre,
      trace_of (Run sample_Metadata sample_decode context.Background
                    (constant_plan sample_Metadata
                                   (Panicked (panic_value "unexpected")))
                    [] empty_store)
      = pre ++ [EvCancel sample_Metadata
                         (context.cancelCtx 0 context.Background)]) /\
  context.Done
    (store_of (Run sample_Metadata sample_decode context.Background
                   (constant_plan sample_Metadata
                                  (Panicked (panic_value "unexpected")))
                   [] empty_store))
    (context.cancelCtx 0 context.Background) = true.
Proof.
  apply (Run_propagates_panic_of_execute
           sample_Metadata sample_decode context.Background
           (constant_plan sample_Metadata
                          (Panicked (panic_value "unexpected")))
           [] empty_store
           (context.cancelCtx 0 context.Background) None
           (panic_value "unexpected")).
  simpl. left. reflexivity.
Defined.

(** A subprocess killed by signal 9. *)
Lemma exitCode_without_exit_status_witness :
  exitCode (Some (exec_ExitError_ptr
                    (Some (exec.mk_ExitError
                             (Some (os.mk_ProcessState 4242 (os.signaled 9)))
                             nil_slice))))
  = Ok (-1).
Proof.
  apply (exitCode_without_exit_status
           (exec.mk_ExitError
              (Some (os.mk_ProcessState 4242 (os.signaled 9))) nil_slice)).
  reflexivity.
Defined.


Lemma RunAndExit_cancels_before_exit_witness :
  exists pre child,
    trace_of (RunAndExit sample_Metadata sample_decode
                (constant_plan sample_Metadata (Ok (Some exit_7)))
                [] empty_store)
    = pre ++ [EvCancel sample_Metadata child; EvExit sample_Metadata 7] /\
    context.parent_of child = Some context.Background /\
    context.Done
      (store_of (RunAndExit sample_Metadata sample_decode
                   (constant_plan sample_Metadata (Ok (Some exit_7)))
                   [] empty_store)) child = true /\
    exits (trace_of (RunAndExit sample_Metadata sample_decode
                       (constant_plan sample_Metadata (Ok (Some exit_7)))
                       [] empty_store)) = [7].
Proof.
  apply (RunAndExit_cancels_before_exit
           sample_Metadata sample_decode
           (constant_plan sample_Metadata (Ok (Some exit_7)))
           [] empty_store 7).
  reflexivity.
Defined.

(** A modifier that cancels context 0 and clears the options comes first;
    then a nil modifier comes first. *)
Lemma Run_last_WithMetadata_wins_witness :
  Run_values sample_Metadata sample_decode
    (Some (context.cancelCtx 0 context.Background))
    (constant_plan sample_Metadata (Ok None))
    ([Some (fun _ s => (Ok zero_runOptions, context.cancel 0 s))]
       ++ [returning (WithMetadata (slice [Byte.x01]))])
    (context.mk_store 1 [])
  = Run_values sample_Metadata sample_decode
      (Some (context.cancelCtx 0 context.Background))
      (constant_plan sample_Metadata (Ok None))
      [returning (WithMetadata (slice [Byte.x01]))]
      (context.mk_store 1 [0%nat]) /\
  Run_values sample_Metadata sample_decode
    (Some context.Background)
    (constant_plan sample_Metadata (Ok None))
    ([None] ++ [returning (WithMetadata (slice [Byte.x01]))])
    empty_store
  = (Panic nil_dereference, empty_store, []).
Proof.
  split.
  - apply (proj1 (Run_last_WithMetadata_wins
                    sample_Metadata sample_decode
                    (Some (context.cancelCtx 0 context.Background))
                    (constant_plan sample_Metadata (Ok None))
                    [Some (fun _ s => (Ok zero_runOptions,
                                       context.cancel 0 s))]
                    (slice [Byte.x01]) (context.mk_store 1 []))
                 zero_runOptions (context.mk_store 1 [0%nat])).
    reflexivity.
  - apply (proj2 (Run_last_WithMetadata_wins
                    sample_Metadata sample_decode (Some context.Background)
                    (constant_plan sample_Metadata (Ok None))
                    [None] (slice [Byte.x01]) empty_store)
                 nil_dereference empty_store).
    reflexivity.
Defined.

(** [Run] on a nil parent decodes first and then panics in
    [context.WithCancel]; [Run] with a nil modifier panics in the loop,
    before the modifier after it is applied. *)
Example Run_values_on_nil_arguments :
  Run_values sample_Metadata sample_decode None
    (constant_plan sample_Metadata (Ok None))
    [returning (WithMetadata (slice [Byte.x01]))] empty_store
  = (Panic nil_parent, empty_store,
     [EvDecode sample_Metadata (slice [Byte.x01]) (Ok (Some [Byte.x01]))]) /\
  Run_values sample_Metadata sample_decode (Some context.Background)
    (constant_plan sample_Metadata (Ok None))
    [None; returning (WithMetadata (slice [Byte.x01]))] empty_store
  = (Panic nil_dereference, empty_store, []).
Proof. split; reflexivity. Qed.
